(** * Credential search views (api/v3/views/search.py)

    A shallow embedding of the query-shaping code of the search views:
    the bounded query wrapper [TopicSearchQuerySet], the validation gate
    and the facet orchestrator of [CredentialSearchView], and the
    module-level constant [LIMIT]. *)

From Stdlib Require Import ZArith Lia.
From stdpp Require Import ssreflect base option list gmap strings.

#[local] Set Warnings "-rewrite-rw".
Local Open Scope Z_scope.

(** ** Python values *)

(** A Python [str] is a sequence of Unicode code points. *)
Abbreviation pystr := (list N).

(** The code points of a literal. *)
Definition lit (s : string) : pystr :=
  Ascii.N_of_ascii <$> String.list_ascii_of_string s.

(** The values the view code inspects with [isinstance]. *)
Inductive PyVal : Type :=
  | PyNone
  | PyBool (b : bool)
  | PyInt (z : Z)
  | PyBytes (b : list N)
  | PyStr (s : pystr).

(** [len(s)] *)
Definition len {A} (l : list A) : Z := Z.of_nat (length l).

(** [bool(s)] of a [str]: the empty string is the only falsy one. *)
Definition truthy (s : pystr) : bool :=
  match s with
  | [] => false
  | _ :: _ => true
  end.

(** The code points [str.strip()] removes (those of [str.isspace]). *)
Definition is_space (c : N) : bool :=
  ((9 <=? c) && (c <=? 13) || (28 <=? c) && (c <=? 32)
   || (c =? 133) || (c =? 160) || (c =? 5760)
   || (8192 <=? c) && (c <=? 8202)
   || (c =? 8232) || (c =? 8233) || (c =? 8239) || (c =? 8287)
   || (c =? 12288))%N.

Fixpoint lstrip (s : pystr) : pystr :=
  match s with
  | [] => []
  | c :: s' => if is_space c then lstrip s' else s
  end.

Definition rstrip (s : pystr) : pystr := reverse (lstrip (reverse s)).

(** [s.strip()] *)
Definition strip (s : pystr) : pystr := rstrip (lstrip s).

(** ['{}:"{}"'.format(key, value)] *)
Definition format_clause (key value : pystr) : pystr :=
  key ++ [58; 34]%N ++ value ++ [34]%N.

(** ** The request's query parameters

    [request.GET] (and its alias [request.query_params]) is a multi-valued
    dictionary: the (key, value) pairs of the query string, in order. *)
Abbreviation QueryDict := (list (pystr * pystr)).

Record Request : Type := { GET : QueryDict }.

Definition query_params (request : Request) : QueryDict := GET request.

(** [params.getlist(key)]: every value given for [key], in order. *)
Fixpoint getlist (key : pystr) (params : QueryDict) : list pystr :=
  match params with
  | [] => []
  | (k, v) :: rest =>
      if decide (k = key) then v :: getlist key rest else getlist key rest
  end.

(** [params.get(key)]: the last value given for [key], [None] without one. *)
Definition get (key : pystr) (params : QueryDict) : PyVal :=
  match last (getlist key params) with
  | Some v => PyStr v
  | None => PyNone
  end.

(** ** Settings and the module's globals *)

(** [getattr(settings, name, default)] on integer settings. *)
Definition getattr (settings : gmap string Z) (name : string) (default : Z) : Z :=
  match settings !! name with
  | Some v => v
  | None => default
  end.

(** The global names the methods below look up when they run. *)
Record Globals : Type := { LIMIT : Z }.

(** Importing the module executes its top-level assignment
    [LIMIT = getattr(settings, "HAYSTACK_MAX_RESULTS", 200)]. *)
Definition module_load (settings : gmap string Z) : Globals :=
  {| LIMIT := getattr settings "HAYSTACK_MAX_RESULTS" 200 |}.

(** ** The bounded query wrapper *)

(** The methods [TopicSearchQuerySet] inherits from haystack's
    [RelatedSearchQuerySet] and reaches through [super()]; each may update
    the queryset object. *)
Class RelatedSearchQuerySet (Q : Type) : Type := {
  super__len__ : Q → Z * Q;
  super_count : Q → Z * Q;
  super_fill_cache : option Z → option Z → Q → bool * Q;
}.

Module TopicSearchQuerySet.
Section methods.
Context {Q : Type} `{!RelatedSearchQuerySet Q}.
Variable g : Globals.

Definition __len__ (self : Q) : Z * Q :=
  let '(ret, self) := super__len__ self in
  let ret := if ret >? LIMIT g then LIMIT g else ret in
  (ret, self).

(** The result of the inherited call is dropped: the method returns
    [None]. The keyword arguments are passed on as they come. *)
Definition _fill_cache (start end_ : option Z) (self : Q) : unit * Q :=
  let start :=
    match start with
    | Some s => if s >? LIMIT g then Some (LIMIT g) else Some s
    | None => None
    end in
  let end_ :=
    match end_ with
    | Some e => if e >? LIMIT g then Some (LIMIT g) else Some e
    | None => None
    end in
  let '(_, self) := super_fill_cache start end_ self in
  (tt, self).

Definition count (self : Q) : Z * Q :=
  let '(ret, self) := super_count self in
  let ret := if ret >? LIMIT g then LIMIT g else ret in
  (ret, self).
End methods.
End TopicSearchQuerySet.

(** ** A search backend *)

(** The state of a queryset over a backend holding the records [hits]:
    the count the backend reports, the windows it has been asked to
    materialize, and the records the last request produced. *)
Record BackendQuerySet (R : Type) : Type := {
  reported_count : Z;
  hits : list R;
  fill_requests : list (option Z * option Z);
  result_cache : list R;
}.
Arguments reported_count {R} _.
Arguments hits {R} _.
Arguments fill_requests {R} _.
Arguments result_cache {R} _.

(** Modelled from the spec: the backend's materialization call, which is
    haystack's and not part of this file. A result window is the pair
    [start, end) over the ordered sequence of backend records, bounds are
    not negative, and an unset bound has full-result semantics: no [start]
    begins at the first record, no [end] runs to the last. *)
Definition window {R} (records : list R) (start end_ : option Z) : list R :=
  let s := default 0 start in
  match end_ with
  | Some e => take (Z.to_nat (e - s)) (drop (Z.to_nat s) records)
  | None => drop (Z.to_nat s) records
  end.

(** Modelled from the spec: the inherited methods over such a backend. The
    materialization call records the window it was asked for and reports
    whether it produced any record. *)
#[export] Instance backend_queryset {R} : RelatedSearchQuerySet (BackendQuerySet R) := {|
  super__len__ qs := (reported_count qs, qs);
  super_count qs := (reported_count qs, qs);
  super_fill_cache start end_ qs :=
    let results := window (hits qs) start end_ in
    (bool_decide (length results ≠ 0%nat),
     {| reported_count := reported_count qs;
        hits := hits qs;
        fill_requests := fill_requests qs ++ [(start, end_)];
        result_cache := results |});
|}.

(** [fetch_window(start, end)]: the records the wrapper's [_fill_cache]
    makes the backend materialize. *)
Definition fetch_window {R} (g : Globals) (start end_ : option Z)
    (qs : BackendQuerySet R) : list R :=
  result_cache (TopicSearchQuerySet._fill_cache g start end_ qs).2.

(** ** The client error of the validation gate *)

(** An instance of rest_framework's [APIException]. *)
Record APIException : Type := {
  status_code : Z;
  detail : pystr;
  code : pystr;
}.

Module MissingTopicParametersException.
Definition status_code : Z := 400.
Definition default_detail : pystr :=
  lit "Please provide at least a 'name' (2 characters or more) or 'topic_id'.".
Definition default_code : pystr := lit "bad_request".

(** [MissingTopicParametersException()]: without arguments the instance
    takes the class defaults. *)
Definition new : APIException :=
  Build_APIException status_code default_detail default_code.
End MissingTopicParametersException.

(** What a handler can raise: this module's own exception, or whatever the
    inherited code raises (a type [X] of its own). *)
Inductive Raised (X : Type) : Type :=
  | raise_MissingTopicParametersException (e : APIException)
  | raise_inherited (x : X).
Arguments raise_MissingTopicParametersException {X} e.
Arguments raise_inherited {X} x.

(** ** The credential search views *)

(** The queryset classes a view can name as its [object_class]. *)
Inductive ObjectClass : Type :=
  | cls_SearchQuerySet
  | cls_TopicSearchQuerySet.

#[export] Instance ObjectClass_eq_dec : EqDecision ObjectClass.
Proof. solve_decision. Defined.

Inductive Serializer : Type :=
  | CredentialSearchSerializer
  | CredentialTopicSearchSerializer
  | CredentialFacetSerializer.

(** The filter backend classes the views list. *)
Inductive FilterBackend : Type :=
  | CredNameFilter
  | CategoryFilter
  | ExactFilter
  | StatusFilter
  | HaystackOrderingFilter
  | CustomFacetFilter.

(** The class attributes that distinguish the two views. *)
Record View : Type := {
  object_class : ObjectClass;
  serializer_class : Serializer;
  facet_objects_serializer_class : Serializer;
}.

(** An [openapi.Parameter] declaration (all of them are [IN_QUERY],
    [TYPE_STRING]). *)
Record openapi_Parameter : Type := {
  name : pystr;
  description : pystr;
  enum : option (list pystr);
  default_ : option pystr;
}.

Module CredentialSearchView.

Definition _swagger_params : list openapi_Parameter := [
  {| name := lit "name";
     description := lit "Filter credentials by related name or topic source ID";
     enum := None; default_ := None |};
  {| name := lit "inactive";
     description := lit "Show inactive credentials";
     enum := Some [lit "any"; lit "false"; lit "true"];
     default_ := Some (lit "false") |};
  {| name := lit "latest";
     description := lit "Show only latest credentials";
     enum := Some [lit "any"; lit "false"; lit "true"];
     default_ := Some (lit "true") |};
  {| name := lit "revoked";
     description := lit "Show revoked credentials";
     enum := Some [lit "any"; lit "false"; lit "true"];
     default_ := Some (lit "false") |};
  {| name := lit "category";
     description := lit "Filter by credential category. The category name and value should be joined by '::'";
     enum := None; default_ := None |};
  {| name := lit "credential_type_id";
     description := lit "Filter by Credential Type ID";
     enum := None; default_ := None |};
  {| name := lit "topic_credential_type_id";
     description := lit "Filter by any Credential Type ID owned by the Topic";
     enum := None; default_ := None |};
  {| name := lit "issuer_id";
     description := lit "Filter by Issuer ID";
     enum := None; default_ := None |};
  {| name := lit "topic_id";
     description := lit "Filter by Topic ID";
     enum := None; default_ := None |}
].

Definition valid_search_query (query topic_id : PyVal) : bool :=
  let is_valid := false in
  let is_valid :=
    match query with
    | PyStr q => if len (strip q) >=? 2 then true else is_valid
    | _ => is_valid
    end in
  let is_valid :=
    match topic_id with
    | PyStr t => if len (strip t) >? 0 then true else is_valid
    | _ => is_valid
    end in
  is_valid.

Definition filter_backends : list FilterBackend :=
  [CredNameFilter; CategoryFilter; ExactFilter; StatusFilter;
   HaystackOrderingFilter].

Definition facet_filter_backends : list FilterBackend :=
  [CredNameFilter; ExactFilter; StatusFilter; CustomFacetFilter].

(** The class itself leaves [object_class] at the inherited default. *)
Definition view : View :=
  {| object_class := cls_SearchQuerySet;
     serializer_class := CredentialSearchSerializer;
     facet_objects_serializer_class := CredentialSearchSerializer |}.

(** *** [facets] *)
Section facets.
(** The querysets, their facet counts and the serialized payload belong
    to haystack and rest_framework, as do the operations on them. *)
Context {QuerySet FacetCounts Payload : Type}.
(** [qs.narrow(clause)]: a new queryset, narrowed by one more clause than
    [qs]; haystack narrows a clone and leaves [qs] itself as it was. *)
Variable narrow : QuerySet → pystr → QuerySet.
(** [qs.query.clean(value)]: the backend's escaping of a value. *)
Variable query_clean : QuerySet → pystr → pystr.
(** [qs.facet_counts()] *)
Variable facet_counts : QuerySet → FacetCounts.
(** The inherited machinery that runs a list of filter backends over a
    queryset for a request. *)
Variable run_backends : list FilterBackend → Request → QuerySet → QuerySet.
(** [self.get_queryset()] *)
Variable get_queryset : QuerySet.
(** [self.get_facet_serializer(counts, objects=..., many=False).data] *)
Variable facet_serializer_data : FacetCounts → QuerySet → Payload.

Definition filter_queryset (request : Request) (queryset : QuerySet) : QuerySet :=
  run_backends filter_backends request queryset.

Definition filter_facet_queryset (request : Request) (queryset : QuerySet) : QuerySet :=
  run_backends facet_filter_backends request queryset.

(** The local variables of [facets]. *)
Record Locals : Type := {
  queryset : QuerySet;
  facet_queryset : QuerySet;
  result_queryset : QuerySet;
}.

Definition facet_keys : list pystr :=
  [lit "category"; lit "credential_type_id";
   lit "topic_credential_type_id"; lit "issuer_id"].

(** [for value in request.query_params.getlist(key): ...] *)
Fixpoint narrow_values (key : pystr) (values : list pystr) (l : Locals) : Locals :=
  match values with
  | [] => l
  | value :: values =>
      let l :=
        if truthy value then
          {| queryset := queryset l;
             facet_queryset :=
               narrow (facet_queryset l)
                 (format_clause key (query_clean (queryset l) value));
             result_queryset := result_queryset l |}
        else l in
      narrow_values key values l
  end.

(** [for key in (...): ...] *)
Fixpoint narrow_keys (keys : list pystr) (request : Request) (l : Locals) : Locals :=
  match keys with
  | [] => l
  | key :: keys =>
      narrow_keys keys request
        (narrow_values key (getlist key (query_params request)) l)
  end.

Definition facets (request : Request) : Payload :=
  let l :=
    {| queryset := get_queryset;
       facet_queryset := filter_facet_queryset request get_queryset;
       result_queryset := filter_queryset request get_queryset |} in
  let l := narrow_keys facet_keys request l in
  facet_serializer_data (facet_counts (facet_queryset l)) (result_queryset l).
End facets.

(** *** [list] *)
Section list.
(** The inherited [list] of the viewset runs the backend query; [W] is
    the state of the world it acts on, [X] what it can raise. *)
Context {W X Response : Type}.
Variable super_list : View → Request → W → (X + Response) * W.

Definition list (self : View) (request : Request) (w : W)
    : (Raised X + Response) * W :=
  let proceed :=
    match super_list self request w with
    | (inl x, w) => (inl (raise_inherited x), w)
    | (inr ret, w) => (inr ret, w)
    end in
  if decide (object_class self = cls_TopicSearchQuerySet) then
    let query := get (lit "name") (GET request) in
    let topic_id := get (lit "topic_id") (GET request) in
    if negb (valid_search_query query topic_id) then
      (inl (raise_MissingTopicParametersException
              MissingTopicParametersException.new), w)
    else proceed
  else proceed.
End list.

End CredentialSearchView.

Module CredentialTopicSearchView.
Definition view : View :=
  {| object_class := cls_TopicSearchQuerySet;
     serializer_class := CredentialTopicSearchSerializer;
     facet_objects_serializer_class := CredentialTopicSearchSerializer |}.
End CredentialTopicSearchView.

(** ** The status filter *)

(** The default an [openapi.Parameter] list declares for a parameter. *)
Fixpoint declared_default (params : list openapi_Parameter) (key : pystr)
    : option pystr :=
  match params with
  | [] => None
  | p :: rest =>
      if decide (name p = key) then default_ p else declared_default rest key
  end.

Section status_filter.
Context {QuerySet : Type}.
(** The backend narrowing of one status dimension to one value. *)
Variable narrow_status : pystr → pystr → QuerySet → QuerySet.

Definition status_dimensions : list pystr :=
  [lit "inactive"; lit "latest"; lit "revoked"].

(** Modelled from the spec: the value a status dimension takes for a
    request. [api.v2.search.filters.StatusFilter] is not part of this file;
    an absent parameter uses the default documented for its dimension. *)
Definition resolve_status (dimension : pystr) (params : QueryDict) : option pystr :=
  match get dimension params with
  | PyStr value => Some value
  | _ => declared_default CredentialSearchView._swagger_params dimension
  end.

(** Modelled from the spec: one dimension of the status filter, missing
    from this file as above. The value "any" disables narrowing on the
    dimension; any other value narrows the query by it. *)
Definition status_stage (dimension : pystr) (params : QueryDict)
    (queryset : QuerySet) : QuerySet :=
  match resolve_status dimension params with
  | Some value =>
      if decide (value = lit "any") then queryset
      else narrow_status dimension value queryset
  | None => queryset
  end.

(** Modelled from the spec: the status filter stage, missing from this file
    as above: every status dimension in turn, each deciding on its own
    parameter. *)
Definition StatusFilter_filter_queryset (request : Request)
    (queryset : QuerySet) : QuerySet :=
  foldl (λ qs dimension, status_stage dimension (query_params request) qs)
    queryset status_dimensions.
End status_filter.

(** ** The module at run time *)

(** The state the module's code runs in: the settings object and the
    module's global namespace, from names to the integers bound to them. *)
Record Interpreter : Type := {
  settings : gmap string Z;
  module_globals : gmap string Z;
}.

Inductive PyError : Type :=
  | NameError (name : string).

(** Running a piece of code gives a value or an uncaught exception, and
    the state it leaves. *)
Definition Run (A : Type) : Type := Interpreter → (PyError + A) * Interpreter.

Definition run_ret {A : Type} (a : A) : Run A := λ i, (inr a, i).

Definition run_bind {A B : Type} (m : Run A) (k : A → Run B) : Run B :=
  λ i,
    match m i with
    | (inl e, i) => (inl e, i)
    | (inr a, i) => k a i
    end.

Notation "x <~ m ;; k" := (run_bind m (λ x, k))
  (at level 100, m at next level, right associativity).

(** Reading a global name looks it up in the namespace when the statement
    runs; a name not bound yet raises [NameError]. *)
Definition load_global (name : string) : Run Z :=
  λ i,
    match module_globals i !! name with
    | Some value => (inr value, i)
    | None => (inl (NameError name), i)
    end.

(** [name = value] at module level, or in a function that declares the
    name [global]. *)
Definition store_global (name : string) (value : Z) : Run unit :=
  λ i,
    (inr tt,
     {| settings := settings i;
        module_globals := <[name := value]> (module_globals i) |}).

(** [getattr(settings, name, default)], on the settings as they are when
    the call runs. *)
Definition getattr_settings (name : string) (default : Z) : Run Z :=
  λ i, (inr (getattr (settings i) name default), i).

(** The module [search] as the interpreter runs it: its top-level
    assignment, and the methods of the wrapper with their lookups of the
    global [LIMIT]. The inherited calls act on the queryset only. *)
Module search.

(** [LIMIT = getattr(settings, "HAYSTACK_MAX_RESULTS", 200)] *)
Definition module_body : Run unit :=
  value <~ getattr_settings "HAYSTACK_MAX_RESULTS" 200 ;;
  store_global "LIMIT" value.

Module TopicSearchQuerySet.
Section methods.
Context {Q : Type} `{!RelatedSearchQuerySet Q}.

Definition __len__ (self : Q) : Run (Z * Q) :=
  let '(ret, self) := super__len__ self in
  limit <~ load_global "LIMIT" ;;
  if ret >? limit then
    ret <~ load_global "LIMIT" ;;
    run_ret (ret, self)
  else run_ret (ret, self).

Definition _fill_cache (start end_ : option Z) (self : Q) : Run (unit * Q) :=
  start <~
    match start with
    | Some s =>
        limit <~ load_global "LIMIT" ;;
        if s >? limit then
          start <~ load_global "LIMIT" ;;
          run_ret (Some start)
        else run_ret (Some s)
    | None => run_ret None
    end ;;
  end_ <~
    match end_ with
    | Some e =>
        limit <~ load_global "LIMIT" ;;
        if e >? limit then
          end_ <~ load_global "LIMIT" ;;
          run_ret (Some end_)
        else run_ret (Some e)
    | None => run_ret None
    end ;;
  let '(_, self) := super_fill_cache start end_ self in
  run_ret (tt, self).

Definition count (self : Q) : Run (Z * Q) :=
  let '(ret, self) := super_count self in
  limit <~ load_global "LIMIT" ;;
  if ret >? limit then
    ret <~ load_global "LIMIT" ;;
    run_ret (ret, self)
  else run_ret (ret, self).
End methods.
End TopicSearchQuerySet.

End search.

(** The interpreter once the module has been imported: its body has run
    over the settings of the starting process and an empty namespace. *)
Definition import_module (settings0 : gmap string Z) : Interpreter :=
  (search.module_body {| settings := settings0; module_globals := ∅ |}).2.

(** What happens in the process afterwards: calls of the wrapper's methods,
    and changes other code makes to the settings object. *)
Inductive Event (Q : Type) : Type :=
  | call__len__ (qs : Q)
  | call_count (qs : Q)
  | call_fill_cache (start end_ : option Z) (qs : Q)
  | settings_changed (key : string) (value : Z).
Arguments call__len__ {Q} qs.
Arguments call_count {Q} qs.
Arguments call_fill_cache {Q} start end_ qs.
Arguments settings_changed {Q} key value.

Inductive Outcome (Q : Type) : Type :=
  | returned_int (ret : Z) (qs : Q)
  | returned_none (qs : Q)
  | no_call.
Arguments returned_int {Q} ret qs.
Arguments returned_none {Q} qs.
Arguments no_call {Q}.

Section process.
Context {Q : Type} `{!RelatedSearchQuerySet Q}.

(** One event: a method of the module runs in the interpreter and leaves
    the state it leaves; a change of the settings is other code's and
    touches the settings object alone. *)
Definition perform (e : Event Q) : Run (Outcome Q) :=
  match e with
  | call__len__ qs =>
      r <~ search.TopicSearchQuerySet.__len__ qs ;;
      run_ret (returned_int r.1 r.2)
  | call_count qs =>
      r <~ search.TopicSearchQuerySet.count qs ;;
      run_ret (returned_int r.1 r.2)
  | call_fill_cache start end_ qs =>
      r <~ search.TopicSearchQuerySet._fill_cache start end_ qs ;;
      run_ret (returned_none r.2)
  | settings_changed key value =>
      λ i,
        (inr no_call,
         {| settings := <[key := value]> (settings i);
            module_globals := module_globals i |})
  end.

(** The events one after the other, each from the state the one before
    left; an exception ends its own call only. *)
Fixpoint perform_each (events : list (Event Q)) (i : Interpreter)
    : list (PyError + Outcome Q) * Interpreter :=
  match events with
  | [] => ([], i)
  | e :: events =>
      let '(o, i) := perform e i in
      let '(os, i) := perform_each events i in
      (o :: os, i)
  end.

(** What a call returns when every clamp is against the one ceiling [L]:
    the inherited count or bound, or [L] when that is smaller. *)
Definition clamped_at (L : Z) (e : Event Q) : Outcome Q :=
  match e with
  | call__len__ qs =>
      returned_int (Z.min (super__len__ qs).1 L) (super__len__ qs).2
  | call_count qs =>
      returned_int (Z.min (super_count qs).1 L) (super_count qs).2
  | call_fill_cache start end_ qs =>
      returned_none
        (super_fill_cache ((λ b, Z.min b L) <$> start)
           ((λ b, Z.min b L) <$> end_) qs).2
  | settings_changed _ _ => no_call
  end.
End process.

(** ** Reference statements *)

(** A bound that is unset or does not exceed [L]. *)
Definition within (L : Z) (bound : option Z) : Prop :=
  match bound with
  | Some b => b ≤ L
  | None => True
  end.

(** A window [start, end) with a set end: bounds in order and not
    negative. *)
Definition ordered_window (start : option Z) (e : Z) : Prop :=
  match start with
  | Some s => 0 ≤ s ≤ e
  | None => 0 ≤ e
  end.

(** A window that starts beyond the ceiling materializes nothing. *)
Definition empty_beyond_limit {R} (g : Globals) (start : Z) (end_ : option Z)
    (qs : BackendQuerySet R) : Prop :=
  start > LIMIT g → fetch_window g (Some start) end_ qs = [].

(** The clauses one key contributes: one per value that is not empty. *)
Definition clauses_for (clean : pystr → pystr) (key : pystr)
    (values : list pystr) : list pystr :=
  (λ value, format_clause key (clean value)) <$> filter (λ value, value ≠ []) values.

(** The clauses a request contributes for a list of keys, in order. *)
Definition narrowing_clauses (clean : pystr → pystr) (keys : list pystr)
    (params : QueryDict) : list pystr :=
  flat_map (λ key, clauses_for clean key (getlist key params)) keys.

(** ** A queryset that records what is applied to it *)

Record RecordedQuerySet : Type := {
  backends_run : list FilterBackend;
  narrow_queries : list pystr;
}.

Definition recorded_narrow (qs : RecordedQuerySet) (clause : pystr) : RecordedQuerySet :=
  {| backends_run := backends_run qs;
     narrow_queries := narrow_queries qs ++ [clause] |}.

Definition recorded_run (backends : list FilterBackend) (request : Request)
    (qs : RecordedQuerySet) : RecordedQuerySet :=
  {| backends_run := backends_run qs ++ backends;
     narrow_queries := narrow_queries qs |}.

Definition recorded_empty : RecordedQuerySet :=
  {| backends_run := []; narrow_queries := [] |}.

(** The facet-narrowing loop over a recorded queryset, the values left as
    they are by the escaping. *)
Definition recorded_loop (request : Request) : RecordedQuerySet :=
  CredentialSearchView.facet_queryset
    (CredentialSearchView.narrow_keys recorded_narrow (λ _ value, value)
       CredentialSearchView.facet_keys request
       {| CredentialSearchView.queryset := recorded_empty;
          CredentialSearchView.facet_queryset := recorded_empty;
          CredentialSearchView.result_queryset := recorded_empty |}).

(** Every value supplied for a facet key has its clause among those of the
    narrowed facet queryset. *)
Definition one_clause_per_value (request : Request) : Prop :=
  ∀ key value,
    key ∈ CredentialSearchView.facet_keys →
    value ∈ getlist key (query_params request) →
    format_clause key value ∈ narrow_queries (recorded_loop request).

(** ** Further reference statements *)

(** The number of characters of a string argument that are not whitespace;
    an argument that is not a string has none. *)
Definition non_space_chars (v : PyVal) : Z :=
  match v with
  | PyStr s => len (filter (λ c, is_space c = false) s)
  | _ => 0
  end.

(** A window as a caller requests it: set bounds are not negative and in
    order. *)
Definition requested_window (w : option Z * option Z) : Prop :=
  match w with
  | (Some s, Some e) => 0 ≤ s ≤ e
  | (Some s, None) => 0 ≤ s
  | (None, Some e) => 0 ≤ e
  | (None, None) => True
  end.

(** A window under the ceiling [L]: as requested, and no set bound beyond
    [L]. *)
Definition served_window (L : Z) (w : option Z * option Z) : Prop :=
  match w with
  | (Some s, Some e) => 0 ≤ s ≤ e ∧ e ≤ L
  | (Some s, None) => 0 ≤ s ≤ L
  | (None, Some e) => 0 ≤ e ≤ L
  | (None, None) => True
  end.

(** A run of [_fill_cache] calls on one queryset, one window after the
    other. *)
Definition fill_each {R} (g : Globals) (windows : list (option Z * option Z))
    (qs : BackendQuerySet R) : BackendQuerySet R :=
  foldl (λ qs w, (TopicSearchQuerySet._fill_cache g w.1 w.2 qs).2) qs windows.

(** What [list] returns when it leaves the decision to the inherited
    [list]. *)
Definition inherited_result {W X Response : Type}
    (r : (X + Response) * W) : (Raised X + Response) * W :=
  match r with
  | (inl x, w) => (inl (raise_inherited x), w)
  | (inr ret, w) => (inr ret, w)
  end.

(** * Properties *)


(** ** Strings *)

Lemma lstrip_split (s : pystr) :
  ∃ l, s = l ++ lstrip s ∧ Forall (λ c, is_space c = true) l.
Proof.
  induction s as [|c s [l [Hs Hl]]]; simpl.
  - by exists [].
  - destruct (is_space c) eqn:Hc.
    + exists (c :: l). split; [by rewrite {1}Hs | by constructor].
    + by exists [].
Qed.

Lemma lstrip_head (s : pystr) (c : N) :
  head (lstrip s) = Some c → is_space c = false.
Proof.
  induction s as [|d s IH]; simpl; [done|].
  destruct (is_space d) eqn:Hd; [done|].
  simpl. by intros [= <-].
Qed.

(** [strip] removes a run of whitespace on each side and nothing else. *)
Lemma strip_split (s : pystr) :
  ∃ l r, s = l ++ strip s ++ r
         ∧ Forall (λ c, is_space c = true) l
         ∧ Forall (λ c, is_space c = true) r.
Proof.
  destruct (lstrip_split s) as [l [Hs Hl]].
  destruct (lstrip_split (reverse (lstrip s))) as [r [Hr Hr']].
  exists l, (reverse r). split_and!; [|done|by apply Forall_reverse].
  rewrite {1}Hs. f_equal. unfold strip, rstrip.
  rewrite -reverse_app -Hr. by rewrite reverse_involutive.
Qed.

Lemma rstrip_head (s : pystr) (c : N) :
  head (rstrip s) = Some c → head s = Some c.
Proof.
  unfold rstrip. destruct (lstrip_split (reverse s)) as [l [Hl _]].
  apply (f_equal reverse) in Hl. rewrite reverse_involutive reverse_app in Hl.
  rewrite {2}Hl. by destruct (reverse (lstrip (reverse s))).
Qed.

(** What [strip] leaves neither starts nor ends with whitespace. *)
Lemma strip_ends (s : pystr) (c : N) :
  head (strip s) = Some c ∨ last (strip s) = Some c → is_space c = false.
Proof.
  unfold strip. intros [H|H].
  - by apply (lstrip_head s), rstrip_head.
  - revert H. unfold rstrip. rewrite last_reverse. apply lstrip_head.
Qed.

Example strip_sample : strip (lit "  ab c ") = lit "ab c".
Proof. reflexivity. Qed.

Example format_clause_sample :
  format_clause (lit "issuer_id") (lit "7")
  = lit "issuer_id:" ++ [34%N] ++ lit "7" ++ [34%N].
Proof. reflexivity. Qed.

(** ** Query parameters *)

Example get_last_value :
  get (lit "name") [(lit "name", lit "a"); (lit "q", lit "x"); (lit "name", lit "b")]
  = PyStr (lit "b")
  ∧ get (lit "topic_id") [(lit "name", lit "a")] = PyNone.
Proof. by split. Qed.

(** ** Validation gate *)

(** [C4] [valid_search_query(term, topic_id)] is true exactly when [term] is
    a string whose stripped length is at least 2 or [topic_id] is a string
    whose stripped length is at least 1; the five sample calls of the
    specification evaluate as listed. *)
Theorem valid_search_query_spec :
  (∀ term topic_id : PyVal,
     CredentialSearchView.valid_search_query term topic_id = true ↔
       (∃ s, term = PyStr s ∧ 2 ≤ len (strip s))
       ∨ (∃ s, topic_id = PyStr s ∧ 1 ≤ len (strip s)))
  ∧ CredentialSearchView.valid_search_query (PyStr (lit "ab")) (PyStr (lit "")) = true
  ∧ CredentialSearchView.valid_search_query (PyStr (lit "a")) (PyStr (lit "")) = false
  ∧ CredentialSearchView.valid_search_query (PyStr (lit "")) (PyStr (lit "123")) = true
  ∧ CredentialSearchView.valid_search_query (PyStr (lit " ")) (PyStr (lit " ")) = false
  ∧ CredentialSearchView.valid_search_query PyNone PyNone = false.
Proof.
  split; [|by repeat split].
  intros term topic_id. unfold CredentialSearchView.valid_search_query. split.
  - intros H. destruct topic_id as [| | | |t].
    5: { destruct (Z.gtb_spec (len (strip t)) 0) as [Ht|Ht].
         - right. exists t. split; [done|lia].
         - destruct term as [| | | |q]; try discriminate.
           destruct (Z.geb_spec (len (strip q)) 2); [|discriminate].
           left. exists q. split; [done|lia]. }
    all: destruct term as [| | | |q]; try discriminate;
      destruct (Z.geb_spec (len (strip q)) 2); [|discriminate];
      left; exists q; (split; [done|lia]).
  - intros [[s [-> Hs]]|[s [-> Hs]]].
    + destruct (Z.geb_spec (len (strip s)) 2); [|lia].
      destruct topic_id; try done. by destruct (_ >? _).
    + destruct (Z.gtb_spec (len (strip s)) 0); [done|lia].
Qed.

(** ** The bounded query wrapper *)

Lemma clamp_min (ret L : Z) : (if ret >? L then L else ret) = Z.min ret L.
Proof. destruct (Z.gtb_spec ret L); lia. Qed.

Lemma clamp_bound (L : Z) (bound : option Z) :
  match bound with
  | Some b => if b >? L then Some L else Some b
  | None => None
  end = (λ b, Z.min b L) <$> bound.
Proof. destruct bound as [b|]; simpl; [|done]. by rewrite -clamp_min; destruct (_ >? _). Qed.

Lemma fill_cache_delegates {Q} `{!RelatedSearchQuerySet Q} (g : Globals)
    (start end_ : option Z) (qs : Q) :
  TopicSearchQuerySet._fill_cache g start end_ qs =
    (tt, (super_fill_cache ((λ b, Z.min b (LIMIT g)) <$> start)
            ((λ b, Z.min b (LIMIT g)) <$> end_) qs).2).
Proof.
  unfold TopicSearchQuerySet._fill_cache. rewrite !clamp_bound.
  by destruct (super_fill_cache _ _ _).
Qed.

Lemma within_clamped (L : Z) (bound : option Z) :
  within L ((λ b, Z.min b L) <$> bound).
Proof. destruct bound; simpl; [lia|done]. Qed.

(** [C1] For every ceiling [LIMIT] and every count [C] the inherited call
    reports, [__len__] and [count] both return [min(C, LIMIT)]. *)
Theorem len_and_count_clamped {Q} `{!RelatedSearchQuerySet Q} (g : Globals) (qs : Q) :
  (TopicSearchQuerySet.__len__ g qs).1 = Z.min (super__len__ qs).1 (LIMIT g)
  ∧ (TopicSearchQuerySet.count g qs).1 = Z.min (super_count qs).1 (LIMIT g).
Proof.
  unfold TopicSearchQuerySet.__len__, TopicSearchQuerySet.count.
  destruct (super__len__ qs) as [c q], (super_count qs) as [c' q']; simpl.
  by rewrite !clamp_min.
Qed.

(** [C2] [_fill_cache] clamps [start] and [end] each on its own to [LIMIT]
    and hands the clamped pair to the inherited materialization call; a
    bound that is [None] is handed over as [None]; the backend is never
    asked for a bound beyond [LIMIT]. *)
Theorem fill_cache_clamps_each_bound {Q} `{!RelatedSearchQuerySet Q} {R}
    (g : Globals) (start end_ : option Z) (qs : Q) (bqs : BackendQuerySet R) :
  let start' := (λ b, Z.min b (LIMIT g)) <$> start in
  let end' := (λ b, Z.min b (LIMIT g)) <$> end_ in
  TopicSearchQuerySet._fill_cache g start end_ qs
    = (tt, (super_fill_cache start' end' qs).2)
  ∧ TopicSearchQuerySet._fill_cache g None end_ qs
    = (tt, (super_fill_cache None end' qs).2)
  ∧ TopicSearchQuerySet._fill_cache g start None qs
    = (tt, (super_fill_cache start' None qs).2)
  ∧ fill_requests (TopicSearchQuerySet._fill_cache g start end_ bqs).2
    = fill_requests bqs ++ [(start', end')]
  ∧ within (LIMIT g) start' ∧ within (LIMIT g) end'.
Proof.
  intros start' end'. split_and!.
  - apply fill_cache_delegates.
  - apply (fill_cache_delegates g None).
  - apply (fill_cache_delegates g start None).
  - by rewrite fill_cache_delegates.
  - apply within_clamped.
  - apply within_clamped.
Qed.

Lemma fetch_window_window {R} (g : Globals) (start end_ : option Z)
    (qs : BackendQuerySet R) :
  fetch_window g start end_ qs =
    window (hits qs) ((λ b, Z.min b (LIMIT g)) <$> start)
      ((λ b, Z.min b (LIMIT g)) <$> end_).
Proof. unfold fetch_window. by rewrite fill_cache_delegates. Qed.

Example window_sample :
  window [10; 11; 12; 13; 14] (Some 1) (Some 3) = [11; 12]
  ∧ window [10; 11; 12; 13; 14] None (Some 2) = [10; 11]
  ∧ window [10; 11; 12; 13; 14] (Some 3) None = [13; 14].
Proof. by repeat split. Qed.

(** With the end left unset, a window that starts beyond the ceiling is the
    whole tail of the result from [LIMIT] on: three records here, with a
    ceiling of two. *)
Lemma fetch_window_open_end_not_empty :
  ¬ empty_beyond_limit {| LIMIT := 2 |} 3 None
      {| reported_count := 5; hits := [10; 11; 12; 13; 14];
         fill_requests := []; result_cache := [] |}.
Proof. unfold empty_beyond_limit. vm_compute. intros H. by specialize (H eq_refl). Qed.

(** [C3] (amended) With a ceiling that is not negative and a window
    [start, end) whose end is set, [start] unset or [0 <= start <= end]:
    the materialized window is no longer than [LIMIT], and it is empty
    when [start > LIMIT]. With the end unset the window is the tail of the
    result from the clamped start on. *)
Theorem fetch_window_bounded {R} (g : Globals) (start : option Z) (e : Z)
    (qs : BackendQuerySet R) :
  0 ≤ LIMIT g →
  ordered_window start e →
  len (fetch_window g start (Some e) qs) ≤ LIMIT g
  ∧ (∀ s, start = Some s → s > LIMIT g →
       fetch_window g start (Some e) qs = [])
  ∧ fetch_window g start None qs
    = drop (Z.to_nat (default 0 ((λ b, Z.min b (LIMIT g)) <$> start))) (hits qs).
Proof.
  intros HL Hw. rewrite !fetch_window_window. unfold window, len. simpl.
  split_and!.
  - rewrite length_take.
    destruct start as [s|]; simpl in *; lia.
  - intros s -> Hs. simpl in *.
    replace (Z.min e (LIMIT g) - Z.min s (LIMIT g)) with 0 by lia.
    done.
  - done.
Qed.

Lemma fetch_window_bounded_witness :
  let g := {| LIMIT := 2 |} in
  let qs := {| reported_count := 5; hits := [10; 11; 12; 13; 14];
               fill_requests := []; result_cache := [] |} in
  (0 ≤ LIMIT g ∧ ordered_window (Some 3) 7 ∧ 3 > LIMIT g)
  ∧ len (fetch_window g (Some 3) (Some 7) qs) ≤ LIMIT g
  ∧ fetch_window g (Some 3) (Some 7) qs = []
  ∧ fetch_window g (Some 3) None qs = [12; 13; 14].
Proof.
  intros g qs. split; [simpl; lia|].
  destruct (fetch_window_bounded g (Some 3) 7 qs) as (H1 & H2 & H3);
    [simpl; lia..|].
  split_and!; [exact H1 | apply (H2 3); [reflexivity | simpl; lia] | by rewrite H3].
Defined.

(** ** The topic search handler *)

(** [C5] For a view whose [object_class] is [TopicSearchQuerySet], [list]
    raises [MissingTopicParametersException] (status 400, the fixed
    message) exactly when [valid_search_query(name, topic_id)] is false,
    and it does so without running the inherited [list]: the world is left
    as it was; when the query is valid the inherited [list] decides. *)
Theorem list_rejects_invalid_topic_search {W X Response : Type}
    (super_list : View → Request → W → (X + Response) * W)
    (self : View) (request : Request) (w : W) :
  object_class self = cls_TopicSearchQuerySet →
  let valid :=
    CredentialSearchView.valid_search_query
      (get (lit "name") (GET request)) (get (lit "topic_id") (GET request)) in
  let result := CredentialSearchView.list super_list self request w in
  ((∃ e, result.1 = inl (raise_MissingTopicParametersException e)) ↔ valid = false)
  ∧ (valid = false →
       result =
         (inl (raise_MissingTopicParametersException
                 {| status_code := 400;
                    detail := lit "Please provide at least a 'name' (2 characters or more) or 'topic_id'.";
                    code := lit "bad_request" |}), w))
  ∧ (valid = true →
       result.2 = (super_list self request w).2
       ∧ result.1 = match (super_list self request w).1 with
                    | inl x => inl (raise_inherited x)
                    | inr ret => inr ret
                    end).
Proof.
  intros Hcls valid result. subst result. unfold CredentialSearchView.list.
  rewrite decide_True //. fold valid.
  destruct valid; simpl.
  - split_and!.
    + split; [|done]. intros [e He]. revert He.
      by destruct (super_list self request w) as [[x|r] w'].
    + done.
    + intros _. by destruct (super_list self request w) as [[x|r] w'].
  - split_and!; [|done|done]. split; [done|]. intros _. by eexists.
Qed.

Lemma list_rejects_invalid_topic_search_witness :
  let super_list := λ (_ : View) (_ : Request) (w : nat), (inr 200 : unit + Z, S w) in
  let request := {| GET := [(lit "name", lit "a")] |} in
  object_class CredentialTopicSearchView.view = cls_TopicSearchQuerySet
  ∧ CredentialSearchView.valid_search_query
      (get (lit "name") (GET request)) (get (lit "topic_id") (GET request)) = false
  ∧ CredentialSearchView.list super_list CredentialTopicSearchView.view request 0%nat
    = (inl (raise_MissingTopicParametersException
              MissingTopicParametersException.new), 0%nat).
Proof.
  intros super_list request. split; [reflexivity|]. split; [reflexivity|].
  apply (list_rejects_invalid_topic_search super_list
           CredentialTopicSearchView.view request 0%nat); reflexivity.
Defined.

(** A topic search without parameters is refused and nothing else
    happens; the plain credential search is not gated. *)
Example topic_search_without_parameters :
  let super_list := λ (_ : View) (_ : Request) (w : nat), (inr 200 : unit + Z, S w) in
  CredentialSearchView.list super_list CredentialTopicSearchView.view
    {| GET := [] |} 0%nat
  = (inl (raise_MissingTopicParametersException
            MissingTopicParametersException.new), 0%nat)
  ∧ CredentialSearchView.list super_list CredentialSearchView.view
      {| GET := [] |} 0%nat
    = (inr 200, 1%nat)
  ∧ CredentialSearchView.list super_list CredentialTopicSearchView.view
      {| GET := [(lit "name", lit "al")] |} 0%nat
    = (inr 200, 1%nat).
Proof. by repeat split. Qed.

(** ** The facet orchestrator *)

Lemma getlist_app (key : pystr) (p1 p2 : QueryDict) :
  getlist key (p1 ++ p2) = getlist key p1 ++ getlist key p2.
Proof.
  induction p1 as [|[k v] p1 IH]; simpl; [done|].
  destruct (decide (k = key)); simpl; by rewrite IH.
Qed.

Lemma clauses_for_app (clean : pystr → pystr) (key : pystr) (vs1 vs2 : list pystr) :
  clauses_for clean key (vs1 ++ vs2)
  = clauses_for clean key vs1 ++ clauses_for clean key vs2.
Proof. unfold clauses_for. by rewrite filter_app fmap_app. Qed.

Section facets_loop.
Context {QuerySet : Type}.
Variable narrow : QuerySet → pystr → QuerySet.
Variable query_clean : QuerySet → pystr → pystr.

Local Abbreviation narrow_values := (CredentialSearchView.narrow_values narrow query_clean).
Local Abbreviation narrow_keys := (CredentialSearchView.narrow_keys narrow query_clean).

(** The inner loop assigns to [facet_queryset] alone. *)
Lemma narrow_values_frame (key : pystr) (values : list pystr)
    (l : CredentialSearchView.Locals) :
  CredentialSearchView.queryset (narrow_values key values l)
  = CredentialSearchView.queryset l
  ∧ CredentialSearchView.result_queryset (narrow_values key values l)
    = CredentialSearchView.result_queryset l.
Proof.
  revert l. induction values as [|value values IH]; intros l; simpl; [done|].
  split; [rewrite (proj1 (IH _)) | rewrite (proj2 (IH _))];
    by destruct (truthy value).
Qed.

Lemma narrow_values_facet_queryset (key : pystr) (values : list pystr)
    (l : CredentialSearchView.Locals) :
  CredentialSearchView.facet_queryset (narrow_values key values l)
  = foldl narrow (CredentialSearchView.facet_queryset l)
      (clauses_for (query_clean (CredentialSearchView.queryset l)) key values).
Proof.
  revert l. induction values as [|value values IH]; intros l; simpl; [done|].
  rewrite IH. unfold clauses_for. destruct value as [|c value]; simpl; [|done].
  rewrite filter_cons_False; [|by intros H]. done.
Qed.

Lemma narrow_keys_frame (keys : list pystr) (request : Request)
    (l : CredentialSearchView.Locals) :
  CredentialSearchView.queryset (narrow_keys keys request l)
  = CredentialSearchView.queryset l
  ∧ CredentialSearchView.result_queryset (narrow_keys keys request l)
    = CredentialSearchView.result_queryset l.
Proof.
  revert l. induction keys as [|key keys IH]; intros l; simpl; [done|].
  destruct (IH (narrow_values key (getlist key (query_params request)) l))
    as [-> ->].
  apply narrow_values_frame.
Qed.

Lemma narrow_keys_facet_queryset (keys : list pystr) (request : Request)
    (l : CredentialSearchView.Locals) :
  CredentialSearchView.facet_queryset (narrow_keys keys request l)
  = foldl narrow (CredentialSearchView.facet_queryset l)
      (narrowing_clauses (query_clean (CredentialSearchView.queryset l)) keys
         (query_params request)).
Proof.
  revert l. induction keys as [|key keys IH]; intros l; simpl; [done|].
  rewrite IH foldl_app narrow_values_facet_queryset.
  by destruct (narrow_values_frame key (getlist key (query_params request)) l)
    as [-> _].
Qed.

(** The loop sees a request through the values it gives each key. *)
Lemma narrow_keys_ext (keys : list pystr) (r1 r2 : Request) :
  (∀ key l, narrow_values key (getlist key (query_params r1)) l
            = narrow_values key (getlist key (query_params r2)) l) →
  ∀ l, narrow_keys keys r1 l = narrow_keys keys r2 l.
Proof.
  intros H. induction keys as [|key keys IH]; intros l; simpl; [done|].
  by rewrite IH H.
Qed.

Lemma narrow_values_app (key : pystr) (vs1 vs2 : list pystr)
    (l : CredentialSearchView.Locals) :
  narrow_values key (vs1 ++ vs2) l = narrow_values key vs2 (narrow_values key vs1 l).
Proof. revert l. induction vs1 as [|v vs1 IH]; intros l; simpl; [done|]. by rewrite IH. Qed.

End facets_loop.

Lemma getlist_insert_empty (key key' : pystr) (p1 p2 : QueryDict) :
  filter (λ value, value ≠ []) (getlist key' (p1 ++ (key, []) :: p2))
  = filter (λ value, value ≠ []) (getlist key' (p1 ++ p2)).
Proof.
  rewrite !getlist_app !filter_app. f_equal. simpl.
  destruct (decide (key = key')); [|done].
  rewrite filter_cons_False; [|by intros H]. done.
Qed.

Lemma recorded_narrow_queries (qs : RecordedQuerySet) (clauses : list pystr) :
  narrow_queries (foldl recorded_narrow qs clauses) = narrow_queries qs ++ clauses.
Proof.
  revert qs. induction clauses as [|c cs IH]; intros qs; simpl.
  - by rewrite app_nil_r.
  - rewrite IH. simpl. by rewrite -app_assoc.
Qed.

(** [C6] The payload of [facets] combines the facet counts of the facet
    queryset (the facet filter backends over the base queryset, then the
    narrowing loop) with the result queryset (the full filter backends over
    the same base queryset) as its objects; the narrowing loop leaves the
    result queryset, and the base queryset, as they were. *)
Theorem facets_combines_two_querysets {QuerySet FacetCounts Payload : Type}
    (narrow : QuerySet → pystr → QuerySet)
    (query_clean : QuerySet → pystr → pystr)
    (facet_counts : QuerySet → FacetCounts)
    (run_backends : list FilterBackend → Request → QuerySet → QuerySet)
    (get_queryset : QuerySet)
    (facet_serializer_data : FacetCounts → QuerySet → Payload)
    (request : Request) :
  let facet_queryset :=
    run_backends
      [CredNameFilter; ExactFilter; StatusFilter; CustomFacetFilter]
      request get_queryset in
  let result_queryset :=
    run_backends
      [CredNameFilter; CategoryFilter; ExactFilter; StatusFilter;
       HaystackOrderingFilter]
      request get_queryset in
  CredentialSearchView.facets narrow query_clean facet_counts run_backends
    get_queryset facet_serializer_data request
  = facet_serializer_data
      (facet_counts
         (foldl narrow facet_queryset
            (narrowing_clauses (query_clean get_queryset)
               CredentialSearchView.facet_keys (query_params request))))
      result_queryset
  ∧ ∀ keys l,
      CredentialSearchView.result_queryset
        (CredentialSearchView.narrow_keys narrow query_clean keys request l)
      = CredentialSearchView.result_queryset l
      ∧ CredentialSearchView.queryset
          (CredentialSearchView.narrow_keys narrow query_clean keys request l)
        = CredentialSearchView.queryset l.
Proof.
  intros facet_queryset result_queryset. split.
  - unfold CredentialSearchView.facets.
    rewrite narrow_keys_facet_queryset.
    by rewrite (proj2 (narrow_keys_frame _ _ _ _ _)).
  - intros keys l.
    by destruct (narrow_keys_frame narrow query_clean keys request l) as [-> ->].
Qed.

(** [GET /search/credentials/facets?category=type::A] over a queryset that
    records what is applied to it: the facet counts come from the narrowed
    facet queryset, the objects from the result queryset, which carries no
    narrowing clause. *)
Example facets_category_scenario :
  CredentialSearchView.facets recorded_narrow (λ _ value, value) (λ qs, qs)
    recorded_run recorded_empty (λ counts objects, (counts, objects))
    {| GET := [(lit "category", lit "type::A")] |}
  = ({| backends_run := CredentialSearchView.facet_filter_backends;
        narrow_queries := [format_clause (lit "category") (lit "type::A")] |},
     {| backends_run := CredentialSearchView.filter_backends;
        narrow_queries := [] |}).
Proof. reflexivity. Qed.

(** Not every supplied value has a clause: the request [?category=]
    supplies the empty string for [category] and the facet queryset is
    narrowed by nothing. *)
Lemma empty_category_adds_no_clause :
  ¬ one_clause_per_value {| GET := [(lit "category", [])] |}.
Proof.
  intros H. specialize (H (lit "category") []).
  vm_compute in H.
  assert (Hin : [] ∈ [@nil N]) by constructor.
  assert (Hk : lit "category" ∈ CredentialSearchView.facet_keys) by constructor.
  specialize (H Hk Hin). inversion H.
Qed.

(** [C7] (amended) The narrowing loop narrows the facet queryset by one
    clause [key:"cleaned-value"] for every value that is not empty of each
    of exactly the four names [category], [credential_type_id],
    [topic_credential_type_id], [issuer_id], in this order; the clauses
    narrow one after the other, so the values of one key are AND-combined;
    two values for [category] give two clauses. *)
Theorem facet_narrowing_one_clause_per_value {QuerySet : Type}
    (narrow : QuerySet → pystr → QuerySet)
    (query_clean : QuerySet → pystr → pystr)
    (request : Request) (l : CredentialSearchView.Locals) :
  let clean := query_clean (CredentialSearchView.queryset l) in
  let params := query_params request in
  let clauses key :=
    (λ value, format_clause key (clean value))
      <$> filter (λ value, value ≠ []) (getlist key params) in
  CredentialSearchView.facet_queryset
    (CredentialSearchView.narrow_keys narrow query_clean
       CredentialSearchView.facet_keys request l)
  = foldl narrow (CredentialSearchView.facet_queryset l)
      (clauses (lit "category") ++ clauses (lit "credential_type_id")
       ++ clauses (lit "topic_credential_type_id") ++ clauses (lit "issuer_id"))
  ∧ (∀ c1 v1 c2 v2,
       CredentialSearchView.facet_queryset
         (CredentialSearchView.narrow_keys narrow query_clean
            CredentialSearchView.facet_keys
            {| GET := [(lit "category", c1 :: v1); (lit "category", c2 :: v2)] |} l)
       = narrow
           (narrow (CredentialSearchView.facet_queryset l)
              (format_clause (lit "category") (clean (c1 :: v1))))
           (format_clause (lit "category") (clean (c2 :: v2))))
  ∧ narrow_queries (recorded_loop request)
    = narrowing_clauses (λ value, value) CredentialSearchView.facet_keys params.
Proof.
  intros clean params clauses. split_and!.
  - rewrite narrow_keys_facet_queryset. f_equal.
    unfold narrowing_clauses, CredentialSearchView.facet_keys. simpl.
    by rewrite app_nil_r.
  - done.
  - unfold recorded_loop.
    by rewrite narrow_keys_facet_queryset recorded_narrow_queries.
Qed.

(** [C10] A value supplied as the empty string adds no narrowing clause: on
    its own it leaves the local variables as they are, and a request with
    such a value anywhere among its parameters narrows like the request
    without it. *)
Theorem facet_narrowing_skips_empty_value {QuerySet : Type}
    (narrow : QuerySet → pystr → QuerySet)
    (query_clean : QuerySet → pystr → pystr)
    (key : pystr) (p1 p2 : QueryDict) (l : CredentialSearchView.Locals) :
  CredentialSearchView.narrow_values narrow query_clean key [[]] l = l
  ∧ CredentialSearchView.narrow_keys narrow query_clean
      CredentialSearchView.facet_keys {| GET := p1 ++ (key, []) :: p2 |} l
    = CredentialSearchView.narrow_keys narrow query_clean
        CredentialSearchView.facet_keys {| GET := p1 ++ p2 |} l
  ∧ ∀ clean,
      narrowing_clauses clean CredentialSearchView.facet_keys
        (p1 ++ (key, []) :: p2)
      = narrowing_clauses clean CredentialSearchView.facet_keys (p1 ++ p2).
Proof.
  split_and!.
  - done.
  - apply narrow_keys_ext. intros key' l'. unfold query_params. simpl.
    rewrite !getlist_app !narrow_values_app. simpl.
    by destruct (decide (key = key')).
  - intros clean. unfold narrowing_clauses, clauses_for. simpl.
    by rewrite !getlist_insert_empty.
Qed.

(** ** The status filter *)

Ltac lit_neq := let H := fresh in intros H; vm_compute in H; discriminate H.

Lemma resolve_status_other (dimension key value : pystr) (p1 p2 : QueryDict) :
  key ≠ dimension →
  resolve_status dimension (p1 ++ (key, value) :: p2)
  = resolve_status dimension (p1 ++ p2).
Proof.
  intros Hne. unfold resolve_status, get. rewrite !getlist_app. simpl.
  by rewrite decide_False.
Qed.

Lemma resolve_status_default (dimension value : pystr) (p1 p2 : QueryDict) :
  getlist dimension (p1 ++ p2) = [] →
  declared_default CredentialSearchView._swagger_params dimension = Some value →
  resolve_status dimension (p1 ++ (dimension, value) :: p2)
  = resolve_status dimension (p1 ++ p2).
Proof.
  intros Habsent Hdefault. unfold resolve_status, get. rewrite Habsent.
  revert Habsent. rewrite !getlist_app /= decide_True //.
  by intros [-> ->]%app_eq_nil.
Qed.

(** [C8] The view declares the defaults [inactive=false], [latest=true],
    [revoked=false]; for a request without [latest] the status filter gives
    what it gives for the same request with [latest=true], and without
    [revoked] what it gives with [revoked=false]. *)
Theorem status_filter_defaults {QuerySet : Type}
    (narrow_status : pystr → pystr → QuerySet → QuerySet)
    (p1 p2 : QueryDict) (queryset : QuerySet) :
  (declared_default CredentialSearchView._swagger_params (lit "inactive")
     = Some (lit "false")
   ∧ declared_default CredentialSearchView._swagger_params (lit "latest")
     = Some (lit "true")
   ∧ declared_default CredentialSearchView._swagger_params (lit "revoked")
     = Some (lit "false"))
  ∧ (getlist (lit "latest") (p1 ++ p2) = [] →
       StatusFilter_filter_queryset narrow_status {| GET := p1 ++ p2 |} queryset
       = StatusFilter_filter_queryset narrow_status
           {| GET := p1 ++ (lit "latest", lit "true") :: p2 |} queryset)
  ∧ (getlist (lit "revoked") (p1 ++ p2) = [] →
       StatusFilter_filter_queryset narrow_status {| GET := p1 ++ p2 |} queryset
       = StatusFilter_filter_queryset narrow_status
           {| GET := p1 ++ (lit "revoked", lit "false") :: p2 |} queryset).
Proof.
  split_and!; [done..| |].
  - intros Habsent.
    unfold StatusFilter_filter_queryset, status_dimensions, status_stage,
      query_params. simpl.
    rewrite (resolve_status_default (lit "latest") (lit "true")) //.
    rewrite (resolve_status_other (lit "inactive")); [|lit_neq].
    rewrite (resolve_status_other (lit "revoked")); [|lit_neq].
    done.
  - intros Habsent.
    unfold StatusFilter_filter_queryset, status_dimensions, status_stage,
      query_params. simpl.
    rewrite (resolve_status_default (lit "revoked") (lit "false")) //.
    rewrite (resolve_status_other (lit "inactive")); [|lit_neq].
    rewrite (resolve_status_other (lit "latest")); [|lit_neq].
    done.
Qed.

Lemma status_filter_defaults_witness :
  let narrow_status := λ (dimension value : pystr) (qs : RecordedQuerySet),
    recorded_narrow qs (format_clause dimension value) in
  let p1 := [(lit "name", lit "acme")] in
  let p2 := [(lit "inactive", lit "any")] in
  (getlist (lit "latest") (p1 ++ p2) = []
   ∧ getlist (lit "revoked") (p1 ++ p2) = [])
  ∧ StatusFilter_filter_queryset narrow_status {| GET := p1 ++ p2 |} recorded_empty
    = StatusFilter_filter_queryset narrow_status
        {| GET := p1 ++ (lit "latest", lit "true") :: p2 |} recorded_empty
  ∧ StatusFilter_filter_queryset narrow_status {| GET := p1 ++ p2 |} recorded_empty
    = StatusFilter_filter_queryset narrow_status
        {| GET := p1 ++ (lit "revoked", lit "false") :: p2 |} recorded_empty.
Proof.
  intros narrow_status p1 p2. split; [split; reflexivity|].
  destruct (status_filter_defaults narrow_status p1 p2 recorded_empty)
    as (_ & Hlatest & Hrevoked).
  split; [apply Hlatest | apply Hrevoked]; reflexivity.
Defined.

(** ** The module at run time *)

Section run_time.
Context {Q : Type} `{!RelatedSearchQuerySet Q}.

(** With [LIMIT] bound, a method run in the interpreter returns what it
    returns as a function of the globals, and leaves the state as it
    was. *)
Lemma run__len__ (L : Z) (qs : Q) (i : Interpreter) :
  module_globals i !! "LIMIT"%string = Some L →
  search.TopicSearchQuerySet.__len__ qs i
  = (inr (TopicSearchQuerySet.__len__ {| LIMIT := L |} qs), i).
Proof.
  intros HL.
  unfold search.TopicSearchQuerySet.__len__, TopicSearchQuerySet.__len__.
  destruct (super__len__ qs) as [c q]. unfold run_bind, load_global, run_ret.
  rewrite HL. simpl. destruct (c >? L); [by rewrite HL|done].
Qed.

Lemma run_count (L : Z) (qs : Q) (i : Interpreter) :
  module_globals i !! "LIMIT"%string = Some L →
  search.TopicSearchQuerySet.count qs i
  = (inr (TopicSearchQuerySet.count {| LIMIT := L |} qs), i).
Proof.
  intros HL.
  unfold search.TopicSearchQuerySet.count, TopicSearchQuerySet.count.
  destruct (super_count qs) as [c q]. unfold run_bind, load_global, run_ret.
  rewrite HL. simpl. destruct (c >? L); [by rewrite HL|done].
Qed.

Lemma run_fill_cache (L : Z) (start end_ : option Z) (qs : Q) (i : Interpreter) :
  module_globals i !! "LIMIT"%string = Some L →
  search.TopicSearchQuerySet._fill_cache start end_ qs i
  = (inr (TopicSearchQuerySet._fill_cache {| LIMIT := L |} start end_ qs), i).
Proof.
  intros HL.
  unfold search.TopicSearchQuerySet._fill_cache, TopicSearchQuerySet._fill_cache.
  unfold run_bind, load_global, run_ret. simpl.
  destruct start as [s|], end_ as [e|]; rewrite ?HL; simpl;
    repeat (match goal with |- context [?x >? L] => destruct (x >? L) end;
            rewrite ?HL; simpl);
    by destruct (super_fill_cache _ _ _).
Qed.

Lemma perform_clamped (L : Z) (e : Event Q) (i : Interpreter) :
  module_globals i !! "LIMIT"%string = Some L →
  (perform e i).1 = inr (clamped_at L e)
  ∧ module_globals (perform e i).2 = module_globals i.
Proof.
  intros HL. destruct e as [qs|qs|start end_ qs|key value]; simpl;
    unfold run_bind, run_ret.
  - rewrite (run__len__ L) //. simpl. split; [|done].
    pose proof (clamp_min (super__len__ qs).1 L) as Hmin.
    unfold TopicSearchQuerySet.__len__.
    destruct (super__len__ qs) as [c q]. simpl in *. by rewrite Hmin.
  - rewrite (run_count L) //. simpl. split; [|done].
    pose proof (clamp_min (super_count qs).1 L) as Hmin.
    unfold TopicSearchQuerySet.count.
    destruct (super_count qs) as [c q]. simpl in *. by rewrite Hmin.
  - rewrite (run_fill_cache L) //. simpl. split; [|done].
    by rewrite fill_cache_delegates.
  - done.
Qed.

Lemma perform_each_clamped (L : Z) (events : list (Event Q)) (i : Interpreter) :
  module_globals i !! "LIMIT"%string = Some L →
  (perform_each events i).1 = (λ e, inr (clamped_at L e)) <$> events
  ∧ module_globals (perform_each events i).2 = module_globals i.
Proof.
  revert i. induction events as [|e events IH]; intros i HL; simpl; [done|].
  destruct (perform_clamped L e i HL) as [Ho Hg].
  destruct (perform e i) as [o i']. simpl in *.
  assert (HL' : module_globals i' !! "LIMIT"%string = Some L) by by rewrite Hg.
  destruct (IH i' HL') as [Hos Hg'].
  destruct (perform_each events i') as [os i'']. simpl in *.
  by rewrite Ho Hos Hg' Hg.
Qed.
End run_time.

(** The import binds what [module_load] computes. *)
Lemma import_module_load (settings0 : gmap string Z) :
  import_module settings0
  = {| settings := settings0;
       module_globals := {[ "LIMIT"%string := LIMIT (module_load settings0) ]} |}.
Proof. reflexivity. Qed.

(** [C9] Importing the module binds [LIMIT] to the integer setting
    [HAYSTACK_MAX_RESULTS] as it is then, 200 without one, and touches
    nothing else. Whatever calls of the wrapper and later changes of the
    settings follow, no call raises, the module's globals stay as the
    import left them, and every call clamps against that one value. *)
Theorem LIMIT_bound_at_import_and_only_read {Q : Type} `{!RelatedSearchQuerySet Q}
    (settings0 : gmap string Z) (events : list (Event Q)) :
  let L := default 200 (settings0 !! "HAYSTACK_MAX_RESULTS"%string) in
  import_module settings0
  = {| settings := settings0; module_globals := {[ "LIMIT"%string := L ]} |}
  ∧ module_globals (perform_each events (import_module settings0)).2
    = {[ "LIMIT"%string := L ]}
  ∧ (perform_each events (import_module settings0)).1
    = (λ e, inr (clamped_at L e)) <$> events.
Proof.
  intros L.
  assert (Himport : import_module settings0
    = {| settings := settings0; module_globals := {[ "LIMIT"%string := L ]} |}).
  { unfold import_module, search.module_body, run_bind, getattr_settings,
      store_global, getattr, L. simpl.
    by destruct (settings0 !! "HAYSTACK_MAX_RESULTS"%string). }
  split; [done|]. rewrite Himport.
  destruct (perform_each_clamped L events
              {| settings := settings0;
                 module_globals := {[ "LIMIT"%string := L ]} |})
    as [Hos Hg]; [apply lookup_singleton_eq|].
  by rewrite Hos Hg.
Qed.

(** A ceiling of 50 at the import stays 50 when the setting is raised
    later; before the import the name is not bound and a clamp raises. *)
Example LIMIT_not_read_again :
  let qs := {| reported_count := 70; hits := @nil nat;
               fill_requests := []; result_cache := [] |} in
  (perform_each
     [call__len__ qs; settings_changed "HAYSTACK_MAX_RESULTS" 500;
      call__len__ qs; call_count qs]
     (import_module {[ "HAYSTACK_MAX_RESULTS"%string := 50 ]})).1
  = [inr (returned_int 50 qs); inr no_call; inr (returned_int 50 qs);
     inr (returned_int 50 qs)]
  ∧ (search.TopicSearchQuerySet.__len__ qs
       {| settings := ∅; module_globals := ∅ |}).1
    = inl (NameError "LIMIT").
Proof. by split. Qed.

(** * Further properties *)

(** ** The gate of [list] *)

Lemma get_absent (key : pystr) (params : QueryDict) :
  getlist key params = [] → get key params = PyNone.
Proof. unfold get. by intros ->. Qed.

(** [X1] Whatever the view, [list] raises [MissingTopicParametersException]
    exactly when the view's [object_class] is [TopicSearchQuerySet] and
    [valid_search_query(name, topic_id)] is false; the plain credential
    search view is never gated and returns what the inherited [list]
    returns. *)
Theorem list_raises_only_in_invalid_topic_mode {W X Response : Type}
    (super_list : View → Request → W → (X + Response) * W)
    (self : View) (request : Request) (w : W) :
  ((∃ e, (CredentialSearchView.list super_list self request w).1
         = inl (raise_MissingTopicParametersException e))
   ↔ object_class self = cls_TopicSearchQuerySet
     ∧ CredentialSearchView.valid_search_query
         (get (lit "name") (GET request))
         (get (lit "topic_id") (GET request)) = false)
  ∧ CredentialSearchView.list super_list CredentialSearchView.view request w
    = inherited_result (super_list CredentialSearchView.view request w).
Proof.
  split; [|done]. unfold CredentialSearchView.list.
  destruct (decide (object_class self = cls_TopicSearchQuerySet)) as [Hc|Hc].
  - destruct (CredentialSearchView.valid_search_query _ _); simpl.
    + split; [|by intros [_ ?]]. intros [e He]. revert He.
      by destruct (super_list self request w) as [[x|r] w'].
    + split; [done|]. intros _. by eexists.
  - split; [|by intros [? _]]. intros [e He]. revert He.
    by destruct (super_list self request w) as [[x|r] w'].
Qed.

(** [X3] A topic search whose request has neither a [name] nor a
    [topic_id] parameter is refused, whatever other parameters (filters,
    ordering) it carries, and the inherited [list] is not run. *)
Theorem topic_search_with_filters_only_is_refused {W X Response : Type}
    (super_list : View → Request → W → (X + Response) * W)
    (self : View) (request : Request) (w : W) :
  object_class self = cls_TopicSearchQuerySet →
  getlist (lit "name") (GET request) = [] →
  getlist (lit "topic_id") (GET request) = [] →
  CredentialSearchView.list super_list self request w
  = (inl (raise_MissingTopicParametersException
            MissingTopicParametersException.new), w).
Proof.
  intros Hc Hname Htopic. unfold CredentialSearchView.list.
  by rewrite decide_True // !get_absent.
Qed.

Lemma topic_search_with_filters_only_is_refused_witness :
  let super_list := λ (_ : View) (_ : Request) (w : nat), (inr 200 : unit + Z, S w) in
  let request :=
    {| GET := [(lit "category", lit "type::A"); (lit "issuer_id", lit "7");
               (lit "inactive", lit "any")] |} in
  (object_class CredentialTopicSearchView.view = cls_TopicSearchQuerySet
   ∧ getlist (lit "name") (GET request) = []
   ∧ getlist (lit "topic_id") (GET request) = [])
  ∧ CredentialSearchView.list super_list CredentialTopicSearchView.view request 0%nat
    = (inl (raise_MissingTopicParametersException
              MissingTopicParametersException.new), 0%nat).
Proof.
  intros super_list request. split; [by repeat split|].
  apply (topic_search_with_filters_only_is_refused super_list
           CredentialTopicSearchView.view request 0%nat); reflexivity.
Defined.

(** ** What the gate counts *)

Lemma filter_lstrip (s : pystr) :
  filter (λ c, is_space c = false) (lstrip s)
  = filter (λ c, is_space c = false) s.
Proof.
  induction s as [|c s IH]; simpl; [done|].
  destruct (is_space c) eqn:Hc; [|done].
  rewrite IH filter_cons_False; [|by rewrite Hc]. done.
Qed.

(** [strip] removes whitespace only. *)
Lemma filter_strip (s : pystr) :
  filter (λ c, is_space c = false) (strip s)
  = filter (λ c, is_space c = false) s.
Proof.
  unfold strip, rstrip.
  by rewrite filter_reverse filter_lstrip filter_reverse reverse_involutive
       filter_lstrip.
Qed.

(** A string that neither starts nor ends with whitespace is as long as two
    exactly when it holds two characters that are not whitespace, and not
    empty exactly when it holds one. *)
Lemma trimmed_length (u : pystr) :
  (∀ c, head u = Some c ∨ last u = Some c → is_space c = false) →
  (2 ≤ len u ↔ 2 ≤ len (filter (λ c, is_space c = false) u))
  ∧ (1 ≤ len u ↔ 1 ≤ len (filter (λ c, is_space c = false) u)).
Proof.
  intros Hends. unfold len.
  pose proof (length_filter (λ c, is_space c = false) u) as Hle.
  destruct u as [|a [|b t]].
  - simpl. lia.
  - rewrite filter_cons_True; [|apply Hends; by left]. simpl. lia.
  - rewrite filter_cons_True; [|apply Hends; by left].
    destruct (last (b :: t)) as [z|] eqn:Hz; [|by apply last_None in Hz].
    assert (Hin : z ∈ filter (λ c, is_space c = false) (b :: t)).
    { apply list_elem_of_filter. split.
      - apply Hends. right. by rewrite last_cons_cons.
      - by apply last_Some_elem_of. }
    destruct (filter (λ c, is_space c = false) (b :: t)); [by inversion Hin|].
    simpl. lia.
Qed.

Lemma strip_length_non_space (s : pystr) :
  (2 ≤ len (strip s) ↔ 2 ≤ non_space_chars (PyStr s))
  ∧ (1 ≤ len (strip s) ↔ 1 ≤ non_space_chars (PyStr s)).
Proof.
  simpl. rewrite -(filter_strip s). apply trimmed_length, strip_ends.
Qed.

(** [X2] The gate counts characters that are not whitespace, wherever they
    stand: [valid_search_query(term, topic_id)] is true exactly when [term]
    is a string with at least two such characters or [topic_id] is a string
    with at least one. Surrounding or inner whitespace never makes a search
    valid. *)
Theorem valid_search_query_counts_non_whitespace (term topic_id : PyVal) :
  CredentialSearchView.valid_search_query term topic_id = true
  ↔ 2 ≤ non_space_chars term ∨ 1 ≤ non_space_chars topic_id.
Proof.
  pose proof strip_length_non_space as Hstrip.
  unfold CredentialSearchView.valid_search_query.
  destruct term as [| | | |q], topic_id as [| | | |t]; simpl;
    try (split; [discriminate | lia]);
    try (destruct (Hstrip q) as [Hq _]; simpl in Hq);
    try (destruct (Hstrip t) as [_ Ht]; simpl in Ht);
    try destruct (Z.geb_spec (len (strip q)) 2);
    try destruct (Z.gtb_spec (len (strip t)) 0);
    (split; [try done; lia | lia]).
Qed.

(** ** Narrowing clauses *)

Lemma format_clause_value (key v1 v2 : pystr) :
  format_clause key v1 = format_clause key v2 → v1 = v2.
Proof.
  unfold format_clause. intros H%app_inv_head. simpl in H.
  injection H as H. by apply app_inv_tail in H.
Qed.

(** [X4] Over the four facet keys a clause names its key and its cleaned
    value without loss: two clauses are the same only for the same key and
    the same cleaned value. *)
Theorem format_clause_injective (k1 k2 v1 v2 : pystr) :
  k1 ∈ CredentialSearchView.facet_keys →
  k2 ∈ CredentialSearchView.facet_keys →
  format_clause k1 v1 = format_clause k2 v2 →
  k1 = k2 ∧ v1 = v2.
Proof.
  unfold CredentialSearchView.facet_keys. rewrite !elem_of_cons !elem_of_nil.
  intros [->|[->|[->|[->|[]]]]] [->|[->|[->|[->|[]]]]] H;
    try (split; [done | by apply format_clause_value in H]);
    exfalso; revert H; unfold format_clause; cbn; intros H; simplify_eq.
Qed.

Lemma format_clause_injective_witness :
  (lit "issuer_id" ∈ CredentialSearchView.facet_keys
   ∧ format_clause (lit "issuer_id") (lit "7")
     = format_clause (lit "issuer_id") (lit "7"))
  ∧ lit "issuer_id" = lit "issuer_id" ∧ lit "7" = lit "7".
Proof.
  assert (Hk : lit "issuer_id" ∈ CredentialSearchView.facet_keys)
    by (unfold CredentialSearchView.facet_keys; set_solver).
  split; [by split|].
  by apply (format_clause_injective (lit "issuer_id") (lit "issuer_id")
              (lit "7") (lit "7")).
Defined.

Lemma narrow_keys_agree {QuerySet : Type}
    (narrow : QuerySet → pystr → QuerySet)
    (query_clean : QuerySet → pystr → pystr)
    (keys : list pystr) (r1 r2 : Request) :
  (∀ key, key ∈ keys →
     getlist key (query_params r1) = getlist key (query_params r2)) →
  ∀ l, CredentialSearchView.narrow_keys narrow query_clean keys r1 l
       = CredentialSearchView.narrow_keys narrow query_clean keys r2 l.
Proof.
  induction keys as [|key keys IH]; intros H l; simpl; [done|].
  rewrite (H key); [|by left]. apply IH. intros key' Hk. apply H. by right.
Qed.

(** [X5] The narrowing loop sees a request only through the values it
    gives each of the four facet keys: requests that give every facet key
    the same values, in the same order, narrow alike, wherever the
    parameters stand in the query string and whatever other parameters
    there are. *)
Theorem narrowing_depends_on_facet_values_only {QuerySet : Type}
    (narrow : QuerySet → pystr → QuerySet)
    (query_clean : QuerySet → pystr → pystr)
    (r1 r2 : Request) (l : CredentialSearchView.Locals) :
  (∀ key, key ∈ CredentialSearchView.facet_keys →
     getlist key (query_params r1) = getlist key (query_params r2)) →
  CredentialSearchView.narrow_keys narrow query_clean
    CredentialSearchView.facet_keys r1 l
  = CredentialSearchView.narrow_keys narrow query_clean
      CredentialSearchView.facet_keys r2 l.
Proof. intros H. by apply narrow_keys_agree. Qed.

Lemma narrowing_depends_on_facet_values_only_witness :
  let r1 := {| GET := [(lit "issuer_id", lit "7"); (lit "name", lit "acme");
                       (lit "category", lit "a"); (lit "category", lit "b")] |} in
  let r2 := {| GET := [(lit "category", lit "a"); (lit "topic_id", lit "3");
                       (lit "category", lit "b"); (lit "issuer_id", lit "7")] |} in
  let l := {| CredentialSearchView.queryset := recorded_empty;
              CredentialSearchView.facet_queryset := recorded_empty;
              CredentialSearchView.result_queryset := recorded_empty |} in
  (∀ key, key ∈ CredentialSearchView.facet_keys →
     getlist key (query_params r1) = getlist key (query_params r2))
  ∧ CredentialSearchView.narrow_keys recorded_narrow (λ _ value, value)
      CredentialSearchView.facet_keys r1 l
    = CredentialSearchView.narrow_keys recorded_narrow (λ _ value, value)
        CredentialSearchView.facet_keys r2 l.
Proof.
  intros r1 r2 l.
  assert (H : ∀ key, key ∈ CredentialSearchView.facet_keys →
     getlist key (query_params r1) = getlist key (query_params r2)).
  { unfold CredentialSearchView.facet_keys. intros key.
    rewrite !elem_of_cons !elem_of_nil.
    intros [->|[->|[->|[->|[]]]]]; reflexivity. }
  split; [exact H|].
  exact (narrowing_depends_on_facet_values_only recorded_narrow
           (λ _ value, value) r1 r2 l H).
Defined.

(** ** The wrapper below and at the ceiling *)

Lemma clamp_within (L : Z) (bound : option Z) :
  within L bound → (λ b, Z.min b L) <$> bound = bound.
Proof. destruct bound as [b|]; simpl; [|done]. intros H. f_equal. lia. Qed.

(** [X6] Below the ceiling the wrapper changes nothing: a count that does
    not exceed [LIMIT] is returned as the inherited call reports it, and a
    window whose set bounds do not exceed [LIMIT] is handed to the
    inherited materialization call as it was requested. *)
Theorem wrapper_transparent_below_limit {Q} `{!RelatedSearchQuerySet Q}
    (g : Globals) (start end_ : option Z) (qs : Q) :
  (super__len__ qs).1 ≤ LIMIT g →
  (super_count qs).1 ≤ LIMIT g →
  within (LIMIT g) start →
  within (LIMIT g) end_ →
  TopicSearchQuerySet.__len__ g qs = super__len__ qs
  ∧ TopicSearchQuerySet.count g qs = super_count qs
  ∧ TopicSearchQuerySet._fill_cache g start end_ qs
    = (tt, (super_fill_cache start end_ qs).2).
Proof.
  intros Hlen Hcount Hstart Hend. split_and!.
  - unfold TopicSearchQuerySet.__len__. destruct (super__len__ qs) as [c q].
    simpl in *. rewrite clamp_min. f_equal. lia.
  - unfold TopicSearchQuerySet.count. destruct (super_count qs) as [c q].
    simpl in *. rewrite clamp_min. f_equal. lia.
  - by rewrite fill_cache_delegates !clamp_within.
Qed.

Lemma wrapper_transparent_below_limit_witness :
  let g := {| LIMIT := 200 |} in
  let qs := {| reported_count := 5; hits := [10; 11; 12; 13; 14];
               fill_requests := []; result_cache := [] |} in
  ((super__len__ qs).1 ≤ LIMIT g ∧ (super_count qs).1 ≤ LIMIT g
   ∧ within (LIMIT g) (Some 1) ∧ within (LIMIT g) None)
  ∧ TopicSearchQuerySet.__len__ g qs = (5, qs)
  ∧ TopicSearchQuerySet.count g qs = (5, qs)
  ∧ result_cache (TopicSearchQuerySet._fill_cache g (Some 1) None qs).2
    = [11; 12; 13; 14].
Proof.
  intros g qs. split; [simpl; lia|].
  destruct (wrapper_transparent_below_limit g (Some 1) None qs)
    as (Hl & Hc & Hf); [simpl; lia..|done|].
  rewrite Hl Hc Hf. by repeat split.
Defined.

Lemma fill_each_snoc {R} (g : Globals) (windows : list (option Z * option Z))
    (w : option Z * option Z) (qs : BackendQuerySet R) :
  fill_each g (windows ++ [w]) qs
  = (TopicSearchQuerySet._fill_cache g w.1 w.2 (fill_each g windows qs)).2.
Proof. unfold fill_each. by rewrite foldl_snoc. Qed.

Lemma served_clamped (L : Z) (w : option Z * option Z) :
  0 ≤ L → requested_window w →
  served_window L ((λ b, Z.min b L) <$> w.1, (λ b, Z.min b L) <$> w.2).
Proof. destruct w as [[s|] [e|]]; simpl; lia. Qed.

(** [X7] However many windows are fetched through the wrapper, one after
    the other, the backend is asked once per fetch, and every window it is
    asked for has its set bounds within [0, LIMIT] and in order, provided
    the ceiling is not negative and the callers' windows are not negative
    and in order. *)
Theorem fill_requests_stay_under_limit {R} (g : Globals)
    (windows : list (option Z * option Z)) (qs : BackendQuerySet R) :
  0 ≤ LIMIT g →
  Forall requested_window windows →
  Forall (served_window (LIMIT g)) (fill_requests qs) →
  Forall (served_window (LIMIT g)) (fill_requests (fill_each g windows qs))
  ∧ length (fill_requests (fill_each g windows qs))
    = (length (fill_requests qs) + length windows)%nat.
Proof.
  intros HL Hws Hqs.
  induction windows as [|w windows IH] using rev_ind.
  - simpl. split; [done|lia].
  - apply Forall_app in Hws as [Hws Hw]. apply Forall_inv in Hw.
    destruct (IH Hws) as [IHserved IHlength].
    rewrite fill_each_snoc fill_cache_delegates. simpl. split.
    + apply Forall_app. split; [done|].
      apply Forall_singleton. by apply served_clamped.
    + rewrite !length_app IHlength. simpl. lia.
Qed.

Lemma fill_requests_stay_under_limit_witness :
  let g := {| LIMIT := 2 |} in
  let qs := {| reported_count := 5; hits := [10; 11; 12; 13; 14];
               fill_requests := []; result_cache := [] |} in
  let windows := [(Some 0, Some 10); (Some 3, None); (None, Some 1)] in
  (0 ≤ LIMIT g ∧ Forall requested_window windows)
  ∧ fill_requests (fill_each g windows qs)
    = [(Some 0, Some 2); (Some 2, None); (None, Some 1)]
  ∧ Forall (served_window (LIMIT g)) (fill_requests (fill_each g windows qs)).
Proof.
  intros g qs windows.
  assert (Hws : Forall requested_window windows)
    by (repeat constructor; simpl; lia).
  split; [split; [simpl; lia | exact Hws]|]. split; [reflexivity|].
  apply (fill_requests_stay_under_limit g windows qs); [simpl; lia | exact Hws |].
  constructor.
Defined.

(** ** Repeated and missing parameters *)




(** ** Facets without facet parameters *)

Lemma clauses_for_empty (clean : pystr → pystr) (key : pystr) (values : list pystr) :
  (∀ value, value ∈ values → value = []) → clauses_for clean key values = [].
Proof.
  intros H. unfold clauses_for.
  induction values as [|v values IH]; [done|].
  rewrite filter_cons_False; [|intros Hv; apply Hv, H; by left].
  apply IH. intros value Hin. apply H. by right.
Qed.

(** [X10] A facets request that gives the four facet keys no value, or
    only empty ones, is not narrowed at all: its facet counts are those of
    the queryset the facet filter backends produce, beside the result
    queryset as objects. *)
Theorem facets_without_facet_values {QuerySet FacetCounts Payload : Type}
    (narrow : QuerySet → pystr → QuerySet)
    (query_clean : QuerySet → pystr → pystr)
    (facet_counts : QuerySet → FacetCounts)
    (run_backends : list FilterBackend → Request → QuerySet → QuerySet)
    (get_queryset : QuerySet)
    (facet_serializer_data : FacetCounts → QuerySet → Payload)
    (request : Request) :
  (∀ key value,
     key ∈ CredentialSearchView.facet_keys →
     value ∈ getlist key (query_params request) → value = []) →
  CredentialSearchView.facets narrow query_clean facet_counts run_backends
    get_queryset facet_serializer_data request
  = facet_serializer_data
      (facet_counts
         (run_backends CredentialSearchView.facet_filter_backends request
            get_queryset))
      (run_backends CredentialSearchView.filter_backends request get_queryset).
Proof.
  intros H. unfold CredentialSearchView.facets.
  rewrite narrow_keys_facet_queryset.
  rewrite (proj2 (narrow_keys_frame _ _ _ _ _)).
  assert (Hnone : ∀ clean,
    narrowing_clauses clean CredentialSearchView.facet_keys
      (query_params request) = []).
  { intros clean. unfold narrowing_clauses, CredentialSearchView.facet_keys.
    simpl.
    rewrite !clauses_for_empty; [done|..];
      intros value; apply H; unfold CredentialSearchView.facet_keys;
      set_solver. }
  by rewrite Hnone.
Qed.

Lemma facets_without_facet_values_witness :
  let request := {| GET := [(lit "name", lit "acme"); (lit "category", [])] |} in
  (∀ key value,
     key ∈ CredentialSearchView.facet_keys →
     value ∈ getlist key (query_params request) → value = [])
  ∧ CredentialSearchView.facets recorded_narrow (λ _ value, value) (λ qs, qs)
      recorded_run recorded_empty (λ counts objects, (counts, objects)) request
    = ({| backends_run := CredentialSearchView.facet_filter_backends;
          narrow_queries := [] |},
       {| backends_run := CredentialSearchView.filter_backends;
          narrow_queries := [] |}).
Proof.
  intros request.
  assert (H : ∀ key value,
     key ∈ CredentialSearchView.facet_keys →
     value ∈ getlist key (query_params request) → value = []).
  { unfold CredentialSearchView.facet_keys. intros key value.
    rewrite !elem_of_cons !elem_of_nil.
    intros [->|[->|[->|[->|[]]]]]; vm_compute; intros Hin;
      by repeat (inversion Hin as [|? ? ? Hin']; subst; clear Hin;
                 try rename Hin' into Hin). }
  split; [exact H|].
  exact (facets_without_facet_values recorded_narrow (λ _ value, value)
           (λ qs, qs) recorded_run recorded_empty
           (λ counts objects, (counts, objects)) request H).
Defined.
